(** * scripts/lint.py: the lint orchestrator

    The script copies the process environment, redirects CARGO_TARGET_DIR in
    the copy, runs `cargo dylint` with the copy and `cargo clippy` with the
    inherited environment, and prints the two captured standard outputs one
    after the other.

    The script is embedded as a program in a small state-and-exception monad.
    The state holds the dictionaries the script can reach (os.environ and the
    objects it allocates), the machine outside the process, the text that
    sys.stdout holds, and a log of what the process did.  What Python's
    library and the operating system contribute (tempfile.gettempdir,
    os.path.join, the programs that are started, the standard output
    stream) is a [Platform], over which every statement is quantified. *)

From stdpp Require Import gmap strings list fin_maps.
From Stdlib Require Import ZArith Ascii.

Local Open Scope string_scope.
Local Open Scope list_scope.
Local Open Scope Z_scope.
Local Open Scope stdpp_scope.

(** ** Values *)

(** The line feed that [print] appends (its default [end]). *)
Definition newline : string := String "010"%char EmptyString.

(** What [text=True] does to a decoded stream: CR LF and a lone CR become a
    line feed ([data.replace("\r\n", "\n").replace("\r", "\n")]). *)
Fixpoint universal_newlines (s : string) : string :=
  match s with
  | EmptyString => EmptyString
  | String c s' =>
      if Ascii.eqb c "013" then
        match s' with
        | String c' s'' =>
            if Ascii.eqb c' "010" then String "010" (universal_newlines s'')
            else String "010" (universal_newlines s')
        | EmptyString => String "010" EmptyString
        end
      else String c (universal_newlines s')
  end.

(** What [subprocess.run(..., capture_output=True, text=True)] returns. *)
Record CompletedProcess := mkCompleted {
  args : list string;
  returncode : Z;
  stdout : string;
  stderr : string
}.

(** The exceptions that can leave the script. [ReferenceError] stands for the
    use of a dictionary object that was never allocated; the script never
    does that: the only object it touches is the one it has just allocated. *)
Inductive exn :=
  | FileNotFoundError
  | PermissionError
  | UnicodeDecodeError
  | UnicodeEncodeError
  | BrokenPipeError
  | ReferenceError.

(** How a program that the script starts behaves: the operating system
    refuses to start it ([Popen] raises); it never terminates; it terminates
    with return code [rc] having written bytes that decode, in the locale's
    encoding, to the texts [out] and [err]; or it terminates having written
    a stream that does not decode ([None]; [Some] is the text of a stream
    that does). *)
Inductive child_outcome :=
  | NotStarted (e : exn)
  | Hangs
  | Terminated (out err : string) (rc : Z)
  | Garbled (out err : option string) (rc : Z).

(** What [print] comes to on sys.stdout: the text and the line end are
    taken (and held until they are flushed); sys.stdout is None and print
    does nothing; or an exception leaves print, after [reached] got through
    to standard output, with [held] still in the stream. *)
Inductive print_outcome :=
  | Accepted
  | Discarded
  | PrintRaises (e : exn) (reached : string) (held : option string).

(** What an observer of the process can see, in the order it happens:
    a program is requested, a started program has exited and its result is
    captured, text has reached standard output. *)
Inductive event :=
  | Invoke (cmd : list string) (env : gmap string string)
  | Exited (cmd : list string) (r : CompletedProcess)
  | Written (s : string).

(** A dictionary the script can name: [os.environ] itself, or the [n]-th
    object it has allocated. *)
Inductive dict_ref :=
  | Environ
  | Obj (n : nat).

(** The result of running a piece of the script, or the whole of it:
    [FlushFailed] is the interpreter failing to flush standard output when
    it exits, whatever the script did before. *)
Inductive outcome (A : Type) :=
  | Ret (a : A)
  | Raise (e : exn)
  | Blocked
  | FlushFailed.
Arguments Ret {A} a.
Arguments Raise {A} e.
Arguments Blocked {A}.
Arguments FlushFailed {A}.

Section Orchestrator.

(** The machine outside the process (file system, caches, clocks): whatever
    the library and the started programs can read and change. *)
Context {OS : Type}.

Record Platform := mkPlatform {
  (** [tempfile.gettempdir()]: it reads os.environ (TMPDIR, TEMP, TMP) and
      probes candidate directories on the machine by creating, writing and
      removing a file; [None] when no candidate is usable (Python raises
      FileNotFoundError). The machine is returned as the probing left it. *)
  gettempdir : gmap string string -> OS -> option string * OS;
  (** [os.path.join] on two components. *)
  path_join : string -> string -> string;
  (** A program started with an argument list and an environment. *)
  exec : list string -> gmap string string -> OS -> child_outcome * OS;
  (** [print(x)] on sys.stdout, as the script was launched. *)
  stdout_print : string -> print_outcome;
  (** The flush, when the interpreter exits, of the text sys.stdout holds:
      [None] when all of it gets through, [Some d] when the flush fails
      after [d] got through. *)
  stdout_flush : string -> option string
}.

Record State := mkState {
  environ : gmap string string;
  heap : list (gmap string string);
  os : OS;
  log : list event;
  pending : option string
}.

Definition M (A : Type) : Type := State -> outcome A * State.

Definition ret {A} (a : A) : M A := fun s => (Ret a, s).

Definition bind {A B} (m : M A) (k : A -> M B) : M B :=
  fun s =>
    match m s with
    | (Ret a, s') => k a s'
    | (Raise e, s') => (Raise e, s')
    | (Blocked, s') => (Blocked, s')
    | (FlushFailed, s') => (FlushFailed, s')
    end.

Definition raise {A} (e : exn) : M A := fun s => (Raise e, s).

Definition emit (ev : event) : M unit :=
  fun s =>
    (Ret tt, mkState (environ s) (heap s) (os s) (log s ++ [ev]) (pending s)).

End Orchestrator.

Arguments Platform : clear implicits.
Arguments State : clear implicits.
Arguments M : clear implicits.

Declare Scope lint_scope.
Delimit Scope lint_scope with lint.
Notation "x <- c1 ;; c2" := (bind c1 (fun x => c2))
  (at level 100, c1 at next level, right associativity) : lint_scope.
Notation "c1 ;;; c2" := (bind c1 (fun _ => c2))
  (at level 100, right associativity) : lint_scope.

Section Script.

Context {OS : Type}.
Variable p : Platform OS.

Local Open Scope lint_scope.

(** ** The library operations the script calls *)

(** [d.copy()]: a new object with the same entries. *)
Definition dict_copy (d : dict_ref) : M OS dict_ref :=
  fun s =>
    let src := match d with
               | Environ => Some (environ s)
               | Obj n => heap s !! n
               end in
    match src with
    | Some m => (Ret (Obj (length (heap s))),
                 mkState (environ s) (heap s ++ [m]) (os s) (log s) (pending s))
    | None => (Raise ReferenceError, s)
    end.

(** [d[k] = v]: the object itself changes, whoever else holds it. *)
Definition dict_setitem (d : dict_ref) (k v : string) : M OS unit :=
  fun s =>
    match d with
    | Environ =>
        (Ret tt,
         mkState (<[k:=v]> (environ s)) (heap s) (os s) (log s) (pending s))
    | Obj n =>
        match heap s !! n with
        | Some m =>
            (Ret tt,
             mkState (environ s) (<[n:=<[k:=v]> m]> (heap s)) (os s) (log s)
               (pending s))
        | None => (Raise ReferenceError, s)
        end
    end.

(** The entries of a dictionary at this moment. *)
Definition dict_read (d : dict_ref) : M OS (gmap string string) :=
  fun s =>
    match d with
    | Environ => (Ret (environ s), s)
    | Obj n =>
        match heap s !! n with
        | Some m => (Ret m, s)
        | None => (Raise ReferenceError, s)
        end
    end.

(** [tempfile.gettempdir()]: the probing changes the machine whether or not
    a directory is found. *)
Definition tempfile_gettempdir : M OS string :=
  fun s =>
    match gettempdir p (environ s) (os s) with
    | (Some t, o') =>
        (Ret t, mkState (environ s) (heap s) o' (log s) (pending s))
    | (None, o') =>
        (Raise FileNotFoundError,
         mkState (environ s) (heap s) o' (log s) (pending s))
    end.

(** [subprocess.run(cmd, capture_output=True, text=True, env=env)], without
    [check=True] and without a timeout: the child is started with [env], or
    with the process's own environment when [env] is omitted; the call
    returns when the child has terminated, whatever its return code, with
    both streams decoded and their line ends translated; a stream that does
    not decode raises UnicodeDecodeError. *)
Definition subprocess_run (cmd : list string) (env : option dict_ref)
  : M OS CompletedProcess :=
  e <- dict_read (match env with Some d => d | None => Environ end) ;;
  emit (Invoke cmd e) ;;;
  fun s =>
    match exec p cmd e (os s) with
    | (NotStarted x, o') =>
        (Raise x, mkState (environ s) (heap s) o' (log s) (pending s))
    | (Hangs, o') =>
        (Blocked, mkState (environ s) (heap s) o' (log s) (pending s))
    | (Terminated out err rc, o') =>
        let r := mkCompleted cmd rc (universal_newlines out)
                   (universal_newlines err) in
        (Ret r,
         mkState (environ s) (heap s) o' (log s ++ [Exited cmd r]) (pending s))
    | (Garbled _ _ _, o') =>
        (Raise UnicodeDecodeError,
         mkState (environ s) (heap s) o' (log s) (pending s))
    end.

(** [print(x)]: the text and the line end go to sys.stdout, which holds
    them until it is flushed. *)
Definition print (x : string) : M OS unit :=
  fun s =>
    match stdout_print p x with
    | Accepted =>
        (Ret tt,
         mkState (environ s) (heap s) (os s) (log s)
           (Some (default "" (pending s) +:+ x +:+ newline)))
    | Discarded => (Ret tt, s)
    | PrintRaises e reached held =>
        (Raise e,
         mkState (environ s) (heap s) (os s) (log s ++ [Written reached]) held)
    end.

(** The interpreter exiting: what sys.stdout still holds is flushed; when
    that fails the exit status is 120 whatever happened before. A blocked
    script never exits. *)
Definition finalize {A} (r : outcome A * State OS) : outcome A * State OS :=
  match r with
  | (Blocked, s) => (Blocked, s)
  | (res, s) =>
      match pending s with
      | None => (res, s)
      | Some q =>
          match stdout_flush p q with
          | None =>
              (res,
               mkState (environ s) (heap s) (os s) (log s ++ [Written q]) None)
          | Some d =>
              (FlushFailed,
               mkState (environ s) (heap s) (os s) (log s ++ [Written d]) None)
          end
      end
  end.

(** ** The script *)

(** Lines 6-7: what the specification calls buildEnvironment. *)
Definition buildEnvironment : M OS dict_ref :=
  env <- dict_copy Environ ;;
  tmp <- tempfile_gettempdir ;;
  dict_setitem env "CARGO_TARGET_DIR" (path_join p tmp "dylint") ;;;
  ret env.

(** Lines 9-17. The fifth element is two adjacent string literals, which
    Python joins into one string. *)
Definition dylint_command : list string :=
  [ "cargo";
    "dylint";
    "--all";
    "--";
    "--no-default-features" +:+ "--all-targets";
    "--message-format=json" ].

(** Line 20. *)
Definition clippy_command : list string :=
  [ "cargo"; "clippy"; "--all-targets"; "--message-format=json";
    "--no-default-features" ].

(** The module body, lines 6-25. *)
Definition main : M OS unit :=
  env <- buildEnvironment ;;
  dylint_output <- subprocess_run dylint_command (Some env) ;;
  clippy_output <- subprocess_run clippy_command None ;;
  let combined_output := stdout dylint_output +:+ stdout clippy_output in
  print combined_output.

(** A fresh interpreter: the inherited environment, no objects, nothing done,
    nothing held by sys.stdout. *)
Definition boot (e : gmap string string) (o : OS) : State OS :=
  mkState e [] o [] None.

(** Running the script: the module body, then the interpreter's exit. *)
Definition run_script (e : gmap string string) (o : OS) : outcome unit * State OS :=
  finalize (main (boot e o)).

End Script.

Arguments run_script {OS} p e o.
Arguments main {OS} p s.
Arguments buildEnvironment {OS} p s.
Arguments subprocess_run {OS} p cmd env s.
Arguments print {OS} p x s.
Arguments finalize {OS} p {A} r.

(** ** Observations on a run *)

(** Everything that reached standard output, in order. *)
Fixpoint console (l : list event) : string :=
  match l with
  | [] => ""
  | Written s :: l' => s +:+ console l'
  | _ :: l' => console l'
  end.

(** The programs requested, each with the environment it was given. *)
Fixpoint invocations (l : list event) : list (list string * gmap string string) :=
  match l with
  | [] => []
  | Invoke cmd env :: l' => (cmd, env) :: invocations l'
  | _ :: l' => invocations l'
  end.

(** The results captured from the children that terminated. *)
Fixpoint captured (l : list event) : list CompletedProcess :=
  match l with
  | [] => []
  | Exited _ r :: l' => r :: captured l'
  | _ :: l' => captured l'
  end.

(** The interpreter's exit status: 0 when the module body runs to its end,
    1 when an exception leaves it, 120 when the flush of standard output at
    exit fails, none while the script is blocked. *)
Definition exit_status {A} (r : outcome A) : option Z :=
  match r with
  | Ret _ => Some 0
  | Raise _ => Some 1
  | Blocked => None
  | FlushFailed => Some 120
  end.

Definition is_invoke (cmd : list string) (ev : event) : bool :=
  match ev with
  | Invoke c _ => bool_decide (c = cmd)
  | _ => false
  end.

Definition is_exit (cmd : list string) (ev : event) : bool :=
  match ev with
  | Exited c _ => bool_decide (c = cmd)
  | _ => false
  end.

Definition is_write (ev : event) : bool :=
  match ev with
  | Written _ => true
  | _ => false
  end.

(** Every event satisfying [Q] has an earlier event satisfying [P]. *)
Definition precedes (P Q : event -> bool) (l : list event) : Prop :=
  forall i ev, l !! i = Some ev -> Q ev = true ->
    exists j ev', (j < i)%nat /\ l !! j = Some ev' /\ P ev' = true.

(** The same, as a scan of the log; [seen] records that a [P] event was met. *)
Fixpoint precedesb (P Q : event -> bool) (seen : bool) (l : list event) : bool :=
  match l with
  | [] => true
  | ev :: l' => (negb (Q ev) || seen) && precedesb P Q (seen || P ev) l'
  end.

(** ** Concrete platforms, for running the script on examples *)

Fixpoint ends_with_slash (s : string) : bool :=
  match s with
  | EmptyString => false
  | String c EmptyString => Ascii.eqb c "/"
  | String _ s' => ends_with_slash s'
  end.

(** [os.path.join] on a POSIX system, for two components. *)
Definition posixpath_join (a b : string) : string :=
  if String.prefix "/" b then b
  else if String.eqb a "" || ends_with_slash a then a +:+ b
  else a +:+ "/" +:+ b.

(** A POSIX machine on which /tmp is usable and standard output takes and
    delivers everything; the machine state counts the programs run so far. *)
Definition healthy
    (tools : list string -> gmap string string -> nat -> child_outcome * nat)
  : Platform nat :=
  mkPlatform (fun _ n => (Some "/tmp", n)) posixpath_join tools
    (fun _ => Accepted) (fun _ => None).

(** Stub tools: tool A prints "A-OUT", writes [errA] to its error stream and
    returns [rcA]; tool B prints "B-OUT" and succeeds; nothing else exists. *)
Definition stub_tools (errA : string) (rcA : Z)
    (cmd : list string) (env : gmap string string) (n : nat) : child_outcome * nat :=
  if bool_decide (cmd = dylint_command) then (Terminated "A-OUT" errA rcA, S n)
  else if bool_decide (cmd = clippy_command) then (Terminated "B-OUT" "" 0, S n)
  else (NotStarted FileNotFoundError, n).

Definition stub (errA : string) (rcA : Z) : Platform nat :=
  healthy (stub_tools errA rcA).

(** Stub tools that print back the CARGO_TARGET_DIR they were started with. *)
Definition echo_tools
    (cmd : list string) (env : gmap string string) (n : nat) : child_outcome * nat :=
  (Terminated ("[" +:+ default "unset" (env !! "CARGO_TARGET_DIR") +:+ "]") "" 0, S n).

Definition echo : Platform nat := healthy echo_tools.

(** Tools whose output depends on the machine state: each prints how the
    count of earlier runs stands. *)
Definition counting_tools
    (cmd : list string) (env : gmap string string) (n : nat) : child_outcome * nat :=
  (Terminated (if Nat.even n then "even" else "odd") "" 0, S n).

Definition counting : Platform nat := healthy counting_tools.

(** A platform on which tool A never returns. *)
Definition stuck : Platform nat := healthy (fun _ _ n => (Hangs, n)).

(** An inherited environment that already names a target directory. *)
Definition inherited_example : gmap string string :=
  <["CARGO_TARGET_DIR" := "target"]> (<["HOME" := "/root"]> ∅).

(** A platform without a usable temporary directory; the probing leaves a
    trace on the machine. *)
Definition no_tmp : Platform nat :=
  mkPlatform (fun _ n => (None, S n)) posixpath_join (stub_tools "" 0)
    (fun _ => Accepted) (fun _ => None).




(** Tool A terminates; tool B never returns. *)
Definition clippy_stuck_tools
    (cmd : list string) (env : gmap string string) (n : nat) : child_outcome * nat :=
  if bool_decide (cmd = dylint_command) then (Terminated "A-OUT" "" 0, S n)
  else (Hangs, n).

Definition clippy_stuck : Platform nat := healthy clippy_stuck_tools.

(** An inherited environment that names no target directory. *)
Definition plain_example : gmap string string :=
  <["HOME" := "/root"]> ∅.

(** Tool A prints "A-OUT" and succeeds, but what it writes to its error
    stream is not valid text in the locale's encoding; tool B is as in
    [stub_tools]. *)
Definition garbled_tools
    (cmd : list string) (env : gmap string string) (n : nat) : child_outcome * nat :=
  if bool_decide (cmd = dylint_command) then (Garbled (Some "A-OUT") None 0, S n)
  else if bool_decide (cmd = clippy_command) then (Terminated "B-OUT" "" 0, S n)
  else (NotStarted FileNotFoundError, n).

Definition garbled : Platform nat := healthy garbled_tools.

(** The stub tools, both succeeding, on a standard output whose encoding
    refuses the text: print raises UnicodeEncodeError and nothing gets
    through. *)
Definition strict_stdout : Platform nat :=
  mkPlatform (fun _ n => (Some "/tmp", n)) posixpath_join (stub_tools "" 0)
    (fun _ => PrintRaises UnicodeEncodeError "" None) (fun _ => None).


(** ** Notions used in the statements *)

(** The inherited environment [e] with CARGO_TARGET_DIR pointing under the
    temporary directory [t]. *)
Definition overridden {OS} (p : Platform OS) (t : string) (e : gmap string string)
  : gmap string string :=
  <["CARGO_TARGET_DIR" := path_join p t "dylint"]> e.


(** The platform [p] with the error text of every tool replaced: [g] gives
    the new text from the program, its environment, the machine and the old
    text. Whatever decodes still decodes, and nothing else changes. *)
Definition with_stderr {OS}
    (g : list string -> gmap string string -> OS -> string -> string)
    (p : Platform OS) : Platform OS :=
  mkPlatform (gettempdir p) (path_join p)
    (fun cmd env o =>
       match exec p cmd env o with
       | (Terminated out err rc, o') => (Terminated out (g cmd env o err) rc, o')
       | (Garbled out err rc, o') => (Garbled out (g cmd env o <$> err) rc, o')
       | r => r
       end)
    (stdout_print p) (stdout_flush p).


(** ** How the script runs *)

Section Runs.

Context {OS : Type}.
Variable p : Platform OS.

Lemma buildEnvironment_eq (s : State OS) (t : string) (o' : OS) :
  gettempdir p (environ s) (os s) = (Some t, o') ->
  buildEnvironment p s =
    (Ret (Obj (length (heap s))),
     mkState (environ s) (heap s ++ [overridden p t (environ s)]) o' (log s)
       (pending s)).
Proof.
  intros Ht.
  unfold buildEnvironment, bind, dict_copy, tempfile_gettempdir, dict_setitem, ret.
  cbn [heap environ os log pending]. rewrite Ht. cbn [heap environ os log pending].
  rewrite list_lookup_middle by reflexivity.
  rewrite insert_app_r_alt by reflexivity.
  rewrite Nat.sub_diag. reflexivity.
Qed.

Lemma buildEnvironment_raises (s : State OS) (o' : OS) :
  gettempdir p (environ s) (os s) = (None, o') ->
  buildEnvironment p s =
    (Raise FileNotFoundError,
     mkState (environ s) (heap s ++ [environ s]) o' (log s) (pending s)).
Proof.
  intros Ht.
  unfold buildEnvironment, bind, dict_copy, tempfile_gettempdir.
  cbn [heap environ os log pending]. rewrite Ht. reflexivity.
Qed.

(** [subprocess.run] on a state whose dictionaries are known. *)
Lemma subprocess_run_eq (s : State OS) (cmd : list string) (env : option dict_ref)
    (m : gmap string string) :
  match env with
  | None | Some Environ => environ s = m
  | Some (Obj n) => heap s !! n = Some m
  end ->
  subprocess_run p cmd env s =
    match exec p cmd m (os s) with
    | (NotStarted x, o') =>
        (Raise x,
         mkState (environ s) (heap s) o' (log s ++ [Invoke cmd m]) (pending s))
    | (Hangs, o') =>
        (Blocked,
         mkState (environ s) (heap s) o' (log s ++ [Invoke cmd m]) (pending s))
    | (Terminated out err rc, o') =>
        let r := mkCompleted cmd rc (universal_newlines out)
                   (universal_newlines err) in
        (Ret r,
         mkState (environ s) (heap s) o'
           (log s ++ [Invoke cmd m; Exited cmd r]) (pending s))
    | (Garbled _ _ _, o') =>
        (Raise UnicodeDecodeError,
         mkState (environ s) (heap s) o' (log s ++ [Invoke cmd m]) (pending s))
    end.
Proof.
  intros Hm.
  assert (Hread : dict_read (match env with Some d => d | None => Environ end) s
                  = (Ret m, s)).
  { unfold dict_read. destruct env as [[|n]|]; simpl in *; rewrite ?Hm; subst; reflexivity. }
  unfold subprocess_run, bind. rewrite Hread.
  unfold emit. cbn [heap environ os log pending].
  destruct (exec p cmd m (os s)) as [[x| |out err rc|out err rc] o']; try reflexivity.
  cbv zeta. rewrite <- app_assoc. reflexivity.
Qed.

(** The print at the end and the interpreter's exit, when sys.stdout holds
    nothing before. *)
Lemma print_exit_eq (s : State OS) (x : string) :
  pending s = None ->
  finalize p (print p x s) =
    match stdout_print p x with
    | Accepted =>
        match stdout_flush p (x +:+ newline) with
        | None =>
            (Ret tt,
             mkState (environ s) (heap s) (os s)
               (log s ++ [Written (x +:+ newline)]) None)
        | Some d =>
            (FlushFailed,
             mkState (environ s) (heap s) (os s) (log s ++ [Written d]) None)
        end
    | Discarded => (Ret tt, s)
    | PrintRaises ex reached None =>
        (Raise ex,
         mkState (environ s) (heap s) (os s) (log s ++ [Written reached]) None)
    | PrintRaises ex reached (Some q) =>
        match stdout_flush p q with
        | None =>
            (Raise ex,
             mkState (environ s) (heap s) (os s)
               (log s ++ [Written reached; Written q]) None)
        | Some d =>
            (FlushFailed,
             mkState (environ s) (heap s) (os s)
               (log s ++ [Written reached; Written d]) None)
        end
    end.
Proof.
  intros Hp. unfold print, finalize.
  destruct (stdout_print p x) as [| |ex reached [q|]];
    cbn [pending environ heap os log]; rewrite ?Hp; cbn [default];
    change ("" +:+ x +:+ newline) with (x +:+ newline).
  - destruct (stdout_flush p (x +:+ newline)); reflexivity.
  - reflexivity.
  - destruct (stdout_flush p q); rewrite <- app_assoc; reflexivity.
  - reflexivity.
Qed.

(** The whole run, path by path: what is returned, and the state left. *)
Lemma run_script_eq (e : gmap string string) (o : OS) :
  run_script p e o =
    match gettempdir p e o with
    | (None, o0) => (Raise FileNotFoundError, mkState e [e] o0 [] None)
    | (Some t, o0) =>
        let envA := overridden p t e in
        match exec p dylint_command envA o0 with
        | (NotStarted x, o1) =>
            (Raise x, mkState e [envA] o1 [Invoke dylint_command envA] None)
        | (Hangs, o1) =>
            (Blocked, mkState e [envA] o1 [Invoke dylint_command envA] None)
        | (Garbled _ _ _, o1) =>
            (Raise UnicodeDecodeError,
             mkState e [envA] o1 [Invoke dylint_command envA] None)
        | (Terminated outA errA rcA, o1) =>
            let rA := mkCompleted dylint_command rcA (universal_newlines outA)
                        (universal_newlines errA) in
            match exec p clippy_command e o1 with
            | (NotStarted x, o2) =>
                (Raise x,
                 mkState e [envA] o2
                   [Invoke dylint_command envA; Exited dylint_command rA;
                    Invoke clippy_command e] None)
            | (Hangs, o2) =>
                (Blocked,
                 mkState e [envA] o2
                   [Invoke dylint_command envA; Exited dylint_command rA;
                    Invoke clippy_command e] None)
            | (Garbled _ _ _, o2) =>
                (Raise UnicodeDecodeError,
                 mkState e [envA] o2
                   [Invoke dylint_command envA; Exited dylint_command rA;
                    Invoke clippy_command e] None)
            | (Terminated outB errB rcB, o2) =>
                let rB := mkCompleted clippy_command rcB (universal_newlines outB)
                            (universal_newlines errB) in
                finalize p
                  (print p (universal_newlines outA +:+ universal_newlines outB)
                     (mkState e [envA] o2
                        [Invoke dylint_command envA; Exited dylint_command rA;
                         Invoke clippy_command e; Exited clippy_command rB]
                        None))
            end
        end
    end.
Proof.
  unfold run_script, main, bind at 1.
  destruct (gettempdir p e o) as [[t|] o0] eqn:Ht.
  2: { rewrite (buildEnvironment_raises (boot e o) o0 Ht). reflexivity. }
  rewrite (buildEnvironment_eq (boot e o) t o0 Ht).
  cbn [boot heap environ os log pending length app]. cbv zeta.
  unfold bind at 1.
  rewrite (subprocess_run_eq _ _ (Some (Obj 0)) (overridden p t e)) by reflexivity.
  cbn [heap environ os log pending app].
  destruct (exec p dylint_command (overridden p t e) o0)
    as [[x| |outA errA rcA|outA errA rcA] o1]; try reflexivity.
  unfold bind at 1.
  rewrite (subprocess_run_eq _ _ None e) by reflexivity.
  cbn [heap environ os log pending app].
  destruct (exec p clippy_command e o1)
    as [[x| |outB errB rcB|outB errB rcB] o2]; try reflexivity.
Qed.

End Runs.

(** ** Paths through the script *)

Section Paths.

Context {OS : Type}.
Variable p : Platform OS.
Variables (e : gmap string string) (o o0 : OS) (t : string).
Hypothesis Htmp : gettempdir p e o = (Some t, o0).

(** Tool A was requested, whatever became of it. *)
Lemma run_requests_dylint :
  exists rest,
    log (run_script p e o).2 = Invoke dylint_command (overridden p t e) :: rest.
Proof using Htmp.
  rewrite run_script_eq, Htmp. cbv zeta.
  destruct (exec p dylint_command (overridden p t e) o0)
    as [[x| |outA errA rcA|outA errA rcA] o1]; [eexists; reflexivity .. | |];
    [|eexists; reflexivity].
  destruct (exec p clippy_command e o1)
    as [[x| |outB errB rcB|outB errB rcB] o2]; try (eexists; reflexivity).
  rewrite print_exit_eq by reflexivity. cbn [log app].
  repeat case_match; eexists; reflexivity.
Qed.

Section FirstTerminated.

Variables (outA errA : string) (rcA : Z) (o1 : OS).
Hypothesis HA :
  exec p dylint_command (overridden p t e) o0 = (Terminated outA errA rcA, o1).

(** Tool A terminated: tool B was requested with the inherited environment. *)
Lemma run_requests_clippy :
  exists rest,
    log (run_script p e o).2 =
      Invoke dylint_command (overridden p t e)
      :: Exited dylint_command
           (mkCompleted dylint_command rcA (universal_newlines outA)
              (universal_newlines errA))
      :: Invoke clippy_command e :: rest
    /\ invocations rest = []
    /\ environ (run_script p e o).2 = e.
Proof using Htmp HA.
  rewrite run_script_eq, Htmp. cbv zeta. rewrite HA.
  destruct (exec p clippy_command e o1)
    as [[x| |outB errB rcB|outB errB rcB] o2];
    try (eexists; repeat split; reflexivity).
  rewrite print_exit_eq by reflexivity. cbn [log app environ].
  repeat case_match; eexists; repeat split; reflexivity.
Qed.

(** Both tools terminated: what is left is the print and the exit. *)
Lemma run_both_terminated (outB errB : string) (rcB : Z) (o2 : OS) :
  exec p clippy_command e o1 = (Terminated outB errB rcB, o2) ->
  run_script p e o =
    finalize p
      (print p (universal_newlines outA +:+ universal_newlines outB)
         (mkState e [overridden p t e] o2
            [Invoke dylint_command (overridden p t e);
             Exited dylint_command
               (mkCompleted dylint_command rcA (universal_newlines outA)
                  (universal_newlines errA));
             Invoke clippy_command e;
             Exited clippy_command
               (mkCompleted clippy_command rcB (universal_newlines outB)
                  (universal_newlines errB))]
            None)).
Proof using Htmp HA.
  intros HB. rewrite run_script_eq, Htmp. cbv zeta. rewrite HA, HB. reflexivity.
Qed.

End FirstTerminated.

End Paths.

(** ** The shape of a log *)

Lemma string_app_assoc (a b c : string) : (a +:+ b) +:+ c = a +:+ b +:+ c.
Proof.
  induction a as [|x a IH]; [reflexivity|].
  change (String x ((a +:+ b) +:+ c) = String x (a +:+ b +:+ c)).
  f_equal. exact IH.
Qed.

Lemma string_app_empty_r (a : string) : a +:+ "" = a.
Proof.
  induction a as [|x a IH]; [reflexivity|].
  change (String x (a +:+ "") = String x a). f_equal. exact IH.
Qed.

Lemma precedesb_sound_gen (P Q : event -> bool) (l : list event) :
  forall seen, precedesb P Q seen l = true ->
  forall i ev, l !! i = Some ev -> Q ev = true ->
    seen = true \/ exists j ev', (j < i)%nat /\ l !! j = Some ev' /\ P ev' = true.
Proof.
  induction l as [|x l IH]; intros seen Hb i ev Hi HQ; [discriminate Hi|].
  cbn [precedesb] in Hb. apply andb_prop in Hb as [Hhere Hrest].
  destruct i as [|i]; cbn in Hi.
  - injection Hi as ->. rewrite HQ in Hhere. left. exact Hhere.
  - destruct (IH _ Hrest i ev Hi HQ) as [Hs | (j & ev' & Hj & Hl & HP)].
    + apply orb_prop in Hs as [Hs | Hs]; [left; exact Hs|].
      right. exists 0%nat, x. repeat split; [lia | exact Hs].
    + right. exists (S j), ev'. repeat split; [lia | exact Hl | exact HP].
Qed.

Lemma precedesb_sound (P Q : event -> bool) (l : list event) :
  precedesb P Q false l = true -> precedes P Q l.
Proof.
  intros Hb i ev Hi HQ.
  destruct (precedesb_sound_gen P Q l false Hb i ev Hi HQ) as [Hs | H];
    [discriminate Hs | exact H].
Qed.

(** Two captured results mean that both tools terminated with output that
    decodes. *)
Lemma two_captured {OS} (p : Platform OS) (e : gmap string string) (o : OS)
    (rA rB : CompletedProcess) :
  captured (log (run_script p e o).2) = [rA; rB] ->
  exists t o0 outA errA rcA o1 outB errB rcB o2,
    gettempdir p e o = (Some t, o0)
    /\ exec p dylint_command (overridden p t e) o0 = (Terminated outA errA rcA, o1)
    /\ exec p clippy_command e o1 = (Terminated outB errB rcB, o2)
    /\ rA = mkCompleted dylint_command rcA (universal_newlines outA)
              (universal_newlines errA)
    /\ rB = mkCompleted clippy_command rcB (universal_newlines outB)
              (universal_newlines errB).
Proof.
  rewrite run_script_eq.
  destruct (gettempdir p e o) as [[t|] o0]; [cbv zeta | discriminate].
  destruct (exec p dylint_command (overridden p t e) o0)
    as [[x| |outA errA rcA|outA errA rcA] o1] eqn:HA; try discriminate.
  destruct (exec p clippy_command e o1)
    as [[x| |outB errB rcB|outB errB rcB] o2] eqn:HB; try discriminate.
  rewrite print_exit_eq by reflexivity. cbn [log app].
  intros Hcap.
  assert (rA = mkCompleted dylint_command rcA (universal_newlines outA)
                 (universal_newlines errA)
          /\ rB = mkCompleted clippy_command rcB (universal_newlines outB)
                    (universal_newlines errB)) as [-> ->].
  { repeat case_match; cbn in Hcap; injection Hcap as <- <-; split; reflexivity. }
  exists t, o0, outA, errA, rcA, o1, outB, errB, rcB, o2.
  repeat split; assumption.
Qed.

(** ** Properties of the orchestrator *)

(** Two captured results do not by themselves give the output: on a standard
    output that refuses the text, both results are captured, print raises
    and nothing is printed. *)
Lemma combined_output_lost_strict_stdout :
  captured (log (run_script strict_stdout ∅ 0%nat).2)
    = [mkCompleted dylint_command 0 "A-OUT" "";
       mkCompleted clippy_command 0 "B-OUT" ""]
  /\ (run_script strict_stdout ∅ 0%nat).1 = Raise UnicodeEncodeError
  /\ console (log (run_script strict_stdout ∅ 0%nat).2) = ""
  /\ console (log (run_script strict_stdout ∅ 0%nat).2)
     <> "A-OUT" +:+ "B-OUT" +:+ newline.
Proof. vm_compute. repeat split; discriminate. Qed.

(** C1. Whenever tool A (dylint) and tool B (clippy) both returned a captured
    result, and standard output takes the text and delivers it when the
    interpreter exits, the script's whole standard output is A's captured
    standard output, then B's, with nothing between, then one line feed. *)
Theorem combined_output_is_concatenation {OS} (p : Platform OS)
    (e : gmap string string) (o : OS) (rA rB : CompletedProcess) :
  captured (log (run_script p e o).2) = [rA; rB] ->
  stdout_print p (stdout rA +:+ stdout rB) = Accepted ->
  stdout_flush p ((stdout rA +:+ stdout rB) +:+ newline) = None ->
  args rA = dylint_command /\ args rB = clippy_command /\
  console (log (run_script p e o).2) = stdout rA +:+ stdout rB +:+ newline.
Proof.
  intros Hcap Hprint Hflush.
  destruct (two_captured p e o rA rB Hcap)
    as (t & o0 & outA & errA & rcA & o1 & outB & errB & rcB & o2
        & Ht & HA & HB & -> & ->).
  cbn [stdout] in Hprint, Hflush.
  rewrite (run_both_terminated p e o o0 t Ht outA errA rcA o1 HA outB errB rcB o2 HB).
  rewrite print_exit_eq by reflexivity. rewrite Hprint, Hflush.
  cbn [snd log app console args stdout]. repeat split.
  rewrite string_app_empty_r. apply string_app_assoc.
Qed.

(** With stubs printing "A-OUT" and "B-OUT" the output is "A-OUTB-OUT" and a
    line feed. *)
Lemma combined_output_stub :
  args (mkCompleted dylint_command 1 "A-OUT" "A-ERR") = dylint_command /\
  args (mkCompleted clippy_command 0 "B-OUT" "") = clippy_command /\
  console (log (run_script (stub "A-ERR" 1) ∅ 0%nat).2) = "A-OUTB-OUT" +:+ newline.
Proof.
  apply (combined_output_is_concatenation (stub "A-ERR" 1) ∅ 0%nat
           (mkCompleted dylint_command 1 "A-OUT" "A-ERR")
           (mkCompleted clippy_command 0 "B-OUT" "")).
  - vm_compute. reflexivity.
  - reflexivity.
  - reflexivity.
Defined.

(** An error stream can decide the output: two platforms whose tools print
    the same and return the same, and differ only in what tool A writes to
    its error stream (text on one, bytes that do not decode on the other),
    give different outputs. *)
Lemma stderr_changes_output_garbled :
  (exec (stub "A-ERR" 0) dylint_command (overridden (stub "A-ERR" 0) "/tmp" ∅) 0%nat).1
    = Terminated "A-OUT" "A-ERR" 0
  /\ (exec garbled dylint_command (overridden garbled "/tmp" ∅) 0%nat).1
     = Garbled (Some "A-OUT") None 0
  /\ exec garbled clippy_command ∅ 1%nat
     = exec (stub "A-ERR" 0) clippy_command ∅ 1%nat
  /\ console (log (run_script (stub "A-ERR" 0) ∅ 0%nat).2)
     = "A-OUTB-OUT" +:+ newline
  /\ console (log (run_script garbled ∅ 0%nat).2) = "".
Proof. vm_compute. repeat split. Qed.

(** C2. What the tools write to their error streams never reaches the
    script's output: replacing the error text of each tool by any other
    text changes neither how the run ends nor what is printed. *)
Theorem stderr_never_printed {OS}
    (g : list string -> gmap string string -> OS -> string -> string)
    (p : Platform OS)
    (e : gmap string string) (o : OS) :
  (run_script (with_stderr g p) e o).1 = (run_script p e o).1
  /\ console (log (run_script (with_stderr g p) e o).2)
     = console (log (run_script p e o).2).
Proof.
  rewrite !run_script_eq. unfold overridden.
  cbn [with_stderr gettempdir path_join exec].
  destruct (gettempdir p e o) as [[t|] o0]; [cbv zeta | split; reflexivity].
  destruct (exec p dylint_command (<["CARGO_TARGET_DIR":=path_join p t "dylint"]> e) o0)
    as [[x| |outA errA rcA|outA errA rcA] o1]; try (split; reflexivity).
  destruct (exec p clippy_command e o1)
    as [[x| |outB errB rcB|outB errB rcB] o2]; try (split; reflexivity).
  rewrite !print_exit_eq by reflexivity.
  cbn [with_stderr stdout_print stdout_flush].
  repeat case_match; split; reflexivity.
Qed.

Lemma stderr_never_printed_stub :
  stderr <$> captured (log (run_script (with_stderr (fun _ _ _ _ => "") (stub "A-ERR" 1)) ∅ 0%nat).2)
    <> stderr <$> captured (log (run_script (stub "A-ERR" 1) ∅ 0%nat).2)
  /\ (run_script (with_stderr (fun _ _ _ _ => "") (stub "A-ERR" 1)) ∅ 0%nat).1
     = (run_script (stub "A-ERR" 1) ∅ 0%nat).1
  /\ console (log (run_script (with_stderr (fun _ _ _ _ => "") (stub "A-ERR" 1)) ∅ 0%nat).2)
     = console (log (run_script (stub "A-ERR" 1) ∅ 0%nat).2).
Proof.
  split.
  - intros H. vm_compute in H. discriminate H.
  - exact (stderr_never_printed (fun _ _ _ _ => "") (stub "A-ERR" 1) ∅ 0%nat).
Defined.

(** C3. The first tool is started with the inherited environment in which
    exactly CARGO_TARGET_DIR is overridden: it holds the temporary directory
    joined with "dylint", and every other variable is as inherited. *)
Theorem dylint_env_overrides_target_dir {OS} (p : Platform OS)
    (e : gmap string string) (o o0 : OS) (t : string) :
  gettempdir p e o = (Some t, o0) ->
  exists envA,
    invocations (log (run_script p e o).2) !! 0%nat = Some (dylint_command, envA)
    /\ envA !! "CARGO_TARGET_DIR" = Some (path_join p t "dylint")
    /\ forall k, k <> "CARGO_TARGET_DIR" -> envA !! k = e !! k.
Proof.
  intros Ht. destruct (run_requests_dylint p e o o0 t Ht) as [rest Hl].
  exists (overridden p t e). rewrite Hl. split; [reflexivity|].
  unfold overridden. split.
  - apply lookup_insert_eq.
  - intros k Hk. apply lookup_insert_ne. congruence.
Qed.

Lemma dylint_env_overrides_target_dir_echo :
  posixpath_join "/tmp" "dylint" = "/tmp/dylint" /\
  exists envA,
    invocations (log (run_script echo inherited_example 0%nat).2) !! 0%nat
      = Some (dylint_command, envA)
    /\ envA !! "CARGO_TARGET_DIR" = Some (path_join echo "/tmp" "dylint")
    /\ forall k, k <> "CARGO_TARGET_DIR" -> envA !! k = inherited_example !! k.
Proof.
  split; [reflexivity|].
  apply (dylint_env_overrides_target_dir echo inherited_example 0%nat 0%nat "/tmp").
  reflexivity.
Defined.

(** C4. Once the first tool has terminated, the second tool is started with
    the inherited environment itself: the override made for the first tool
    is not part of it, and os.environ is as it was inherited. *)
Theorem clippy_env_is_inherited {OS} (p : Platform OS)
    (e : gmap string string) (o o0 : OS) (t : string)
    (outA errA : string) (rcA : Z) (o1 : OS) :
  gettempdir p e o = (Some t, o0) ->
  exec p dylint_command (overridden p t e) o0 = (Terminated outA errA rcA, o1) ->
  invocations (log (run_script p e o).2)
    = [(dylint_command, overridden p t e); (clippy_command, e)]
  /\ environ (run_script p e o).2 = e.
Proof.
  intros Ht HA.
  destruct (run_requests_clippy p e o o0 t Ht outA errA rcA o1 HA)
    as (rest & Hl & Hrest & Henv).
  split; [|exact Henv].
  rewrite Hl. cbn [invocations]. rewrite Hrest. reflexivity.
Qed.

(** Tool A printing its CARGO_TARGET_DIR shows the override, tool B the
    inherited value. *)
Lemma clippy_env_is_inherited_echo :
  console (log (run_script echo inherited_example 0%nat).2)
    = "[/tmp/dylint][target]" +:+ newline
  /\ invocations (log (run_script echo inherited_example 0%nat).2)
     = [(dylint_command, overridden echo "/tmp" inherited_example);
        (clippy_command, inherited_example)]
  /\ environ (run_script echo inherited_example 0%nat).2 = inherited_example.
Proof.
  split; [vm_compute; reflexivity|].
  apply (clippy_env_is_inherited echo inherited_example 0%nat 0%nat "/tmp"
           "[/tmp/dylint]" "" 0 1%nat).
  - reflexivity.
  - vm_compute. reflexivity.
Defined.

(** Not every completion of tool A lets the script go on: a tool A that
    terminates, with return code 0, having written an error stream that
    does not decode makes the script raise; tool B is never started and
    nothing is printed. *)
Lemma undecodable_output_aborts_garbled :
  (exec garbled dylint_command (overridden garbled "/tmp" ∅) 0%nat).1
    = Garbled (Some "A-OUT") None 0
  /\ (run_script garbled ∅ 0%nat).1 = Raise UnicodeDecodeError
  /\ fst <$> invocations (log (run_script garbled ∅ 0%nat).2) = [dylint_command]
  /\ console (log (run_script garbled ∅ 0%nat).2) = "".
Proof. vm_compute. repeat split. Qed.

(** C5. Whatever return code tool A terminates with, zero or not, provided
    its output decodes, the script goes on: tool B is started, and when B
    terminates too (with any return code and output that decodes) and
    standard output takes and delivers the text, the script ends without an
    exception, having printed the concatenation. *)
Theorem tool_failure_does_not_abort {OS} (p : Platform OS)
    (e : gmap string string) (o o0 : OS) (t : string)
    (outA errA : string) (rcA : Z) (o1 : OS) :
  gettempdir p e o = (Some t, o0) ->
  exec p dylint_command (overridden p t e) o0 = (Terminated outA errA rcA, o1) ->
  invocations (log (run_script p e o).2) !! 1%nat = Some (clippy_command, e)
  /\ forall outB errB rcB o2,
       exec p clippy_command e o1 = (Terminated outB errB rcB, o2) ->
       stdout_print p (universal_newlines outA +:+ universal_newlines outB)
         = Accepted ->
       stdout_flush p
         ((universal_newlines outA +:+ universal_newlines outB) +:+ newline)
         = None ->
       (run_script p e o).1 = Ret tt
       /\ console (log (run_script p e o).2)
          = universal_newlines outA +:+ universal_newlines outB +:+ newline.
Proof.
  intros Ht HA. split.
  - destruct (run_requests_clippy p e o o0 t Ht outA errA rcA o1 HA)
      as (rest & Hl & _ & _).
    rewrite Hl. reflexivity.
  - intros outB errB rcB o2 HB Hprint Hflush.
    rewrite (run_both_terminated p e o o0 t Ht outA errA rcA o1 HA outB errB rcB o2 HB).
    rewrite print_exit_eq by reflexivity. rewrite Hprint, Hflush.
    split; [reflexivity|].
    cbn [snd log app console]. rewrite string_app_empty_r. apply string_app_assoc.
Qed.

(** Tool A returning 1. *)
Lemma tool_failure_does_not_abort_stub :
  invocations (log (run_script (stub "A-ERR" 1) ∅ 0%nat).2) !! 1%nat
    = Some (clippy_command, ∅)
  /\ (run_script (stub "A-ERR" 1) ∅ 0%nat).1 = Ret tt
  /\ console (log (run_script (stub "A-ERR" 1) ∅ 0%nat).2)
     = "A-OUT" +:+ "B-OUT" +:+ newline.
Proof.
  destruct (tool_failure_does_not_abort (stub "A-ERR" 1) ∅ 0%nat 0%nat "/tmp"
              "A-OUT" "A-ERR" 1 1%nat eq_refl eq_refl) as [Hinv Hrest].
  split; [exact Hinv|].
  apply (Hrest "B-OUT" "" 0 2%nat); reflexivity.
Defined.





(** Tools that look at the machine can make two runs differ. *)
Example counting_output_varies :
  console (log (run_script counting ∅ 0%nat).2)
    <> console (log (run_script counting ∅ 1%nat).2).
Proof. intros H. vm_compute in H. discriminate H. Qed.



(** Building the environment can fail: without a usable temporary
    directory it raises. *)
Lemma buildEnvironment_raises_no_tmp :
  (buildEnvironment no_tmp (boot inherited_example 0%nat)).1
    = Raise FileNotFoundError.
Proof. vm_compute. reflexivity. Qed.

(** C8. Building the environment has one failure: it returns a dictionary
    holding the overridden mapping when tempfile.gettempdir() finds a
    directory, and raises FileNotFoundError when it finds none. Either way
    it leaves os.environ as it was, starts and prints nothing, and changes
    the machine only as the probing of gettempdir does: nothing is made or
    looked at under the path it computes. *)
Theorem buildEnvironment_returns_or_raises {OS} (p : Platform OS) (s : State OS) :
  environ (buildEnvironment p s).2 = environ s
  /\ log (buildEnvironment p s).2 = log s
  /\ os (buildEnvironment p s).2 = (gettempdir p (environ s) (os s)).2
  /\ match (gettempdir p (environ s) (os s)).1 with
     | Some t =>
         exists n,
           (buildEnvironment p s).1 = Ret (Obj n)
           /\ heap (buildEnvironment p s).2 !! n
              = Some (overridden p t (environ s))
     | None => (buildEnvironment p s).1 = Raise FileNotFoundError
     end.
Proof.
  destruct (gettempdir p (environ s) (os s)) as [[t|] o'] eqn:Ht.
  - rewrite (buildEnvironment_eq p s t o' Ht).
    cbn [fst snd heap environ os log]. repeat split.
    exists (length (heap s)). split; [reflexivity|].
    apply list_lookup_middle. reflexivity.
  - rewrite (buildEnvironment_raises p s o' Ht). repeat split.
Qed.

(** C9. The run is sequential: in the log of every run, a request to start
    the second tool comes after the first tool's exit (with its captured
    result), and anything written comes after the exits of both tools. *)
Theorem invocations_sequential {OS} (p : Platform OS)
    (e : gmap string string) (o : OS) :
  precedes (is_exit dylint_command) (is_invoke clippy_command)
    (log (run_script p e o).2)
  /\ precedes (is_exit dylint_command) is_write (log (run_script p e o).2)
  /\ precedes (is_exit clippy_command) is_write (log (run_script p e o).2).
Proof.
  rewrite run_script_eq.
  destruct (gettempdir p e o) as [[t|] o0]; cbv zeta.
  2: { repeat split; apply precedesb_sound; reflexivity. }
  destruct (exec p dylint_command (overridden p t e) o0)
    as [[x| |outA errA rcA|outA errA rcA] o1].
  1, 2, 4: repeat split; apply precedesb_sound; vm_compute; reflexivity.
  destruct (exec p clippy_command e o1)
    as [[x| |outB errB rcB|outB errB rcB] o2].
  1, 2, 4: repeat split; apply precedesb_sound; vm_compute; reflexivity.
  rewrite print_exit_eq by reflexivity. cbn [log app].
  repeat case_match;
    repeat split; apply precedesb_sound; vm_compute; reflexivity.
Qed.

(** On the stub platform the events in question do occur: the second tool
    is requested at position 2, after the first exit at position 1, and the
    text is written at position 4, after the second exit at position 3. *)
Lemma invocations_sequential_stub :
  is_invoke clippy_command <$> (log (run_script (stub "A-ERR" 1) ∅ 0%nat).2 !! 2%nat)
    = Some true
  /\ is_write <$> (log (run_script (stub "A-ERR" 1) ∅ 0%nat).2 !! 4%nat) = Some true
  /\ precedes (is_exit dylint_command) (is_invoke clippy_command)
       (log (run_script (stub "A-ERR" 1) ∅ 0%nat).2)
  /\ precedes (is_exit dylint_command) is_write
       (log (run_script (stub "A-ERR" 1) ∅ 0%nat).2)
  /\ precedes (is_exit clippy_command) is_write
       (log (run_script (stub "A-ERR" 1) ∅ 0%nat).2).
Proof.
  split; [vm_compute; reflexivity|].
  split; [vm_compute; reflexivity|].
  exact (invocations_sequential (stub "A-ERR" 1) ∅ 0%nat).
Defined.

(** A platform on which tool A never returns: tool B is never requested
    and nothing is printed. *)
Example stuck_run :
  (run_script stuck ∅ 0%nat).1 = Blocked
  /\ fst <$> invocations (log (run_script stuck ∅ 0%nat).2) = [dylint_command]
  /\ console (log (run_script stuck ∅ 0%nat).2) = "".
Proof. vm_compute. repeat split. Qed.

(** C10. The first tool's argument list has six elements, the fifth being
    the two flags run together as one string; neither flag is an argument
    on its own, and this list is what the first request carries. *)
Theorem dylint_command_joins_flags :
  dylint_command
    = ["cargo"; "dylint"; "--all"; "--";
       "--no-default-features--all-targets"; "--message-format=json"]
  /\ length dylint_command = 6%nat
  /\ ("--no-default-features" ∉ dylint_command)
  /\ ("--all-targets" ∉ dylint_command)
  /\ forall OS (p : Platform OS) (e : gmap string string) (o : OS) cmd env,
       invocations (log (run_script p e o).2) !! 0%nat = Some (cmd, env) ->
       cmd = ["cargo"; "dylint"; "--all"; "--";
              "--no-default-features--all-targets"; "--message-format=json"].
Proof.
  split; [reflexivity|]. split; [reflexivity|].
  split; [intros H; apply list_elem_of_In in H; vm_compute in H;
          intuition discriminate|].
  split; [intros H; apply list_elem_of_In in H; vm_compute in H;
          intuition discriminate|].
  intros OS p e o cmd env.
  destruct (gettempdir p e o) as [[t|] o0] eqn:Ht.
  - destruct (run_requests_dylint p e o o0 t Ht) as [rest ->].
    intros [= <- _]. reflexivity.
  - rewrite run_script_eq, Ht. discriminate.
Qed.

Lemma dylint_command_joins_flags_stub :
  fst <$> (invocations (log (run_script (stub "A-ERR" 1) ∅ 0%nat).2) !! 0%nat)
    = Some ["cargo"; "dylint"; "--all"; "--";
            "--no-default-features--all-targets"; "--message-format=json"].
Proof.
  pose proof dylint_command_joins_flags as (_ & _ & _ & _ & H).
  destruct (invocations (log (run_script (stub "A-ERR" 1) ∅ 0%nat).2) !! 0%nat)
    as [[cmd env]|] eqn:Hi; [|vm_compute in Hi; discriminate Hi].
  cbn [fmap option_fmap option_map fst]. f_equal.
  exact (H nat (stub "A-ERR" 1) ∅ 0%nat cmd env Hi).
Defined.

(** ** Failure paths and frame properties *)







(** X4. When the first tool never terminates the script never returns: the
    second tool is never requested, nothing is printed, and there is no
    exit status. *)
Theorem dylint_hang_blocks_script {OS} (p : Platform OS)
    (e : gmap string string) (o o0 : OS) (t : string) (o1 : OS) :
  gettempdir p e o = (Some t, o0) ->
  exec p dylint_command (overridden p t e) o0 = (Hangs, o1) ->
  (run_script p e o).1 = Blocked
  /\ fst <$> invocations (log (run_script p e o).2) = [dylint_command]
  /\ console (log (run_script p e o).2) = ""
  /\ exit_status (run_script p e o).1 = None.
Proof.
  intros Ht HA. rewrite run_script_eq, Ht. cbv zeta. rewrite HA. repeat split.
Qed.

Lemma dylint_hang_blocks_script_stuck :
  (run_script stuck ∅ 0%nat).1 = Blocked
  /\ fst <$> invocations (log (run_script stuck ∅ 0%nat).2) = [dylint_command]
  /\ console (log (run_script stuck ∅ 0%nat).2) = ""
  /\ exit_status (run_script stuck ∅ 0%nat).1 = None.
Proof.
  apply (dylint_hang_blocks_script stuck ∅ 0%nat 0%nat "/tmp" 0%nat); reflexivity.
Defined.

(** X5. Output is not streamed: when the first tool has terminated and the
    second never does, the script never returns and the text captured from
    the first tool is not printed. *)
Theorem clippy_hang_withholds_output {OS} (p : Platform OS)
    (e : gmap string string) (o o0 : OS) (t : string)
    (outA errA : string) (rcA : Z) (o1 o2 : OS) :
  gettempdir p e o = (Some t, o0) ->
  exec p dylint_command (overridden p t e) o0 = (Terminated outA errA rcA, o1) ->
  exec p clippy_command e o1 = (Hangs, o2) ->
  (run_script p e o).1 = Blocked
  /\ captured (log (run_script p e o).2)
     = [mkCompleted dylint_command rcA (universal_newlines outA)
          (universal_newlines errA)]
  /\ console (log (run_script p e o).2) = "".
Proof.
  intros Ht HA HB. rewrite run_script_eq, Ht. cbv zeta. rewrite HA, HB.
  repeat split.
Qed.

Lemma clippy_hang_withholds_output_clippy_stuck :
  (run_script clippy_stuck ∅ 0%nat).1 = Blocked
  /\ captured (log (run_script clippy_stuck ∅ 0%nat).2)
     = [mkCompleted dylint_command 0 (universal_newlines "A-OUT")
          (universal_newlines "")]
  /\ console (log (run_script clippy_stuck ∅ 0%nat).2) = "".
Proof.
  apply (clippy_hang_withholds_output clippy_stuck ∅ 0%nat 0%nat "/tmp"
           "A-OUT" "" 0 1%nat 1%nat).
  - reflexivity.
  - vm_compute. reflexivity.
  - vm_compute. reflexivity.
Defined.

(** X6. Nothing is printed before both results are in: on every path on
    which fewer than two results were captured, nothing has reached
    standard output and the exit status is not 0. *)
Theorem no_output_without_both_results {OS} (p : Platform OS)
    (e : gmap string string) (o : OS) :
  length (captured (log (run_script p e o).2)) <> 2%nat ->
  console (log (run_script p e o).2) = ""
  /\ exit_status (run_script p e o).1 <> Some 0.
Proof.
  rewrite run_script_eq.
  destruct (gettempdir p e o) as [[t|] o0]; cbv zeta.
  2: { intros _. split; [reflexivity | discriminate]. }
  destruct (exec p dylint_command (overridden p t e) o0)
    as [[x| |outA errA rcA|outA errA rcA] o1].
  1, 2, 4: intros _; split; [reflexivity | discriminate].
  destruct (exec p clippy_command e o1)
    as [[x| |outB errB rcB|outB errB rcB] o2].
  1, 2, 4: intros _; split; [reflexivity | discriminate].
  rewrite print_exit_eq by reflexivity. cbn [log app].
  intros Hlen. exfalso. apply Hlen. repeat case_match; reflexivity.
Qed.

Lemma no_output_without_both_results_garbled :
  console (log (run_script garbled ∅ 0%nat).2) = ""
  /\ exit_status (run_script garbled ∅ 0%nat).1 <> Some 0.
Proof.
  apply (no_output_without_both_results garbled ∅ 0%nat).
  vm_compute. discriminate.
Defined.

(** X7. The script never changes its own environment: on every path,
    failures included, os.environ is at the end what was inherited. *)
Theorem os_environ_untouched {OS} (p : Platform OS)
    (e : gmap string string) (o : OS) :
  environ (run_script p e o).2 = e.
Proof.
  rewrite run_script_eq.
  destruct (gettempdir p e o) as [[t|] o0]; [cbv zeta | reflexivity].
  destruct (exec p dylint_command (overridden p t e) o0)
    as [[x| |outA errA rcA|outA errA rcA] o1]; try reflexivity.
  destruct (exec p clippy_command e o1)
    as [[x| |outB errB rcB|outB errB rcB] o2]; try reflexivity.
  rewrite print_exit_eq by reflexivity. cbn [environ].
  repeat case_match; reflexivity.
Qed.

(** X8. The script starts nothing but its two tools, each at most once and
    in this order: the programs requested in a run are always an initial
    part of dylint, clippy. *)
Theorem only_the_two_tools_in_order {OS} (p : Platform OS)
    (e : gmap string string) (o : OS) :
  (fst <$> invocations (log (run_script p e o).2))
    `prefix_of` [dylint_command; clippy_command].
Proof.
  rewrite run_script_eq.
  destruct (gettempdir p e o) as [[t|] o0]; [cbv zeta | eexists; reflexivity].
  destruct (exec p dylint_command (overridden p t e) o0)
    as [[x| |outA errA rcA|outA errA rcA] o1]; try (eexists; reflexivity).
  destruct (exec p clippy_command e o1)
    as [[x| |outB errB rcB|outB errB rcB] o2]; try (exists []; reflexivity).
  rewrite print_exit_eq by reflexivity. cbn [log app].
  repeat case_match; exists []; reflexivity.
Qed.

(** The two example environments differ at CARGO_TARGET_DIR only. *)
Lemma examples_agree_off_target_dir (k : string) :
  k <> "CARGO_TARGET_DIR" -> inherited_example !! k = plain_example !! k.
Proof.
  intros Hk. unfold inherited_example, plain_example.
  apply lookup_insert_ne. congruence.
Qed.

Lemma overridden_masks {OS} (p : Platform OS) (t : string)
    (e1 e2 : gmap string string) :
  (forall k, k <> "CARGO_TARGET_DIR" -> e1 !! k = e2 !! k) ->
  overridden p t e1 = overridden p t e2.
Proof.
  intros Hagree. apply map_eq. intros k. unfold overridden.
  destruct (decide (k = "CARGO_TARGET_DIR")) as [->|Hk].
  - rewrite !lookup_insert_eq. reflexivity.
  - rewrite !lookup_insert_ne by congruence. apply Hagree, Hk.
Qed.

(** X9. An inherited CARGO_TARGET_DIR is masked for the first tool: two
    inherited environments that differ at most at that variable, on a
    machine where the same temporary directory is found for both, give the
    first tool the same environment, hence the same captured result. *)
Theorem inherited_target_dir_is_masked {OS} (p : Platform OS)
    (e1 e2 : gmap string string) (o o0 : OS) (t : string) :
  gettempdir p e1 o = (Some t, o0) ->
  gettempdir p e2 o = (Some t, o0) ->
  (forall k, k <> "CARGO_TARGET_DIR" -> e1 !! k = e2 !! k) ->
  invocations (log (run_script p e1 o).2) !! 0%nat
    = invocations (log (run_script p e2 o).2) !! 0%nat
  /\ captured (log (run_script p e1 o).2) !! 0%nat
     = captured (log (run_script p e2 o).2) !! 0%nat.
Proof.
  intros Ht1 Ht2 Hagree. rewrite !run_script_eq, Ht1, Ht2. cbv zeta.
  rewrite (overridden_masks p t e1 e2 Hagree).
  destruct (exec p dylint_command (overridden p t e2) o0)
    as [[x| |outA errA rcA|outA errA rcA] o1]; try (split; reflexivity).
  destruct (exec p clippy_command e1 o1)
    as [[x1| |outB1 errB1 rcB1|outB1 errB1 rcB1] o2];
    destruct (exec p clippy_command e2 o1)
      as [[x2| |outB2 errB2 rcB2|outB2 errB2 rcB2] o2'];
    rewrite ?print_exit_eq by reflexivity; cbn [log app];
    repeat case_match; split; reflexivity.
Qed.

(** With the tools printing the variable back: the first tool prints the
    same text in both runs, while the second still shows the difference. *)
Lemma inherited_target_dir_is_masked_echo :
  console (log (run_script echo inherited_example 0%nat).2)
    = "[/tmp/dylint][target]" +:+ newline
  /\ console (log (run_script echo plain_example 0%nat).2)
     = "[/tmp/dylint][unset]" +:+ newline
  /\ invocations (log (run_script echo inherited_example 0%nat).2) !! 0%nat
     = invocations (log (run_script echo plain_example 0%nat).2) !! 0%nat
  /\ captured (log (run_script echo inherited_example 0%nat).2) !! 0%nat
     = captured (log (run_script echo plain_example 0%nat).2) !! 0%nat.
Proof.
  split; [vm_compute; reflexivity|].
  split; [vm_compute; reflexivity|].
  apply (inherited_target_dir_is_masked echo inherited_example plain_example
           0%nat 0%nat "/tmp").
  - reflexivity.
  - reflexivity.
  - exact examples_agree_off_target_dir.
Defined.
